(** * Icebreaker Bot: the Gradio glue of [icebreaker-bot/app.py]

    A shallow embedding of [process_profile] and [chat_with_profile].
    Both functions only sequence calls into the [modules] package and keep
    the session dictionary [active_indices]; the calls themselves (profile
    scraping, node splitting, vector store, LLM) are taken from an
    environment, and every call made is recorded in a trace together with
    its outcome, so that order, arguments and multiplicity of the calls can
    be stated. *)

From Stdlib Require Import Ascii String.
From stdpp Require Import gmap strings list fin_maps.

Local Open Scope string_scope.
Local Open Scope list_scope.
Local Set Warnings "-register-all".

(** ** Python values *)

(** The values that flow between the pipeline stages.  Only their truth
    value, their [str()] and the attribute [response] are ever inspected by
    [app.py].  An object carries the name of its class, the truth value
    its class gives it ([True] unless the class defines [__bool__] or
    [__len__]) and its attributes. *)
Inductive value : Type :=
  | VNone
  | VBool (b : bool)
  | VStr (s : string)
  | VList (l : list value)
  | VDict (d : list (string * value))
  | VObj (cls : string) (truth : bool) (attrs : list (string * value)).

(** Truth value of a string, as in [if s:]. *)
Definition truthy_str (s : string) : bool :=
  match s with
  | EmptyString => false
  | String _ _ => true
  end.

(** Python's truth value testing, as used by [if not x:]. *)
Definition truthy (v : value) : bool :=
  match v with
  | VNone => false
  | VBool b => b
  | VStr s => truthy_str s
  | VList l => match l with [] => false | _ :: _ => true end
  | VDict d => match d with [] => false | _ :: _ => true end
  | VObj _ t _ => t
  end.

(** Truth value of an argument that is a string or [None] (a Gradio
    textbox value). *)
Definition truthy_opt (o : option string) : bool :=
  match o with
  | None => false
  | Some s => truthy_str s
  end.

Definition type_name (v : value) : string :=
  match v with
  | VNone => "NoneType"
  | VBool _ => "bool"
  | VStr _ => "str"
  | VList _ => "list"
  | VDict _ => "dict"
  | VObj cls _ _ => cls
  end.

(** ** Exceptions and outcomes *)

(** What a failing call raises: an instance of [Exception], with its class
    and [str(e)].  This is what [except Exception] catches; the exits that
    derive from [BaseException] only ([KeyboardInterrupt], [SystemExit]) are
    not errors of a call and are not modelled. *)
Record exn : Type := Exn { exn_class : string; exn_str : string }.

Inductive outcome (A : Type) : Type :=
  | Returned (a : A)
  | Raised (e : exn).
Arguments Returned {A} a.
Arguments Raised {A} e.

Fixpoint assoc (k : string) (l : list (string * value)) : option value :=
  match l with
  | [] => None
  | (k', v) :: l' => if String.eqb k k' then Some v else assoc k l'
  end.

(** Attribute access [v.name]. *)
Definition getattr (v : value) (name : string) : outcome value :=
  match v with
  | VObj cls _ attrs =>
      match assoc name attrs with
      | Some a => Returned a
      | None =>
          Raised (Exn "AttributeError"
                    ("'" +:+ cls +:+ "' object has no attribute '" +:+ name +:+ "'"))
      end
  | _ =>
      Raised (Exn "AttributeError"
                ("'" +:+ type_name v +:+ "' object has no attribute '" +:+ name +:+ "'"))
  end.

(** ** Strings and [str.strip()] *)

(** A Python [str] is a sequence of Unicode code points; a [string] here
    holds its UTF-8 encoding, one byte per character.  The literals of
    [app.py] are ASCII, where the two coincide; the text a user types is
    arbitrary, and [str.strip()] is read on its code points. *)

(** The code points [str.isspace] accepts and [str.strip()] removes:
    TAB..CR, FS..US, SPACE, NEL, NBSP, OGHAM SPACE MARK, EN QUAD..HAIR
    SPACE, LINE and PARAGRAPH SEPARATOR, NARROW NBSP, MEDIUM MATHEMATICAL
    SPACE, IDEOGRAPHIC SPACE. *)
Definition whitespace_code_points : list N :=
  [0x9; 0xA; 0xB; 0xC; 0xD; 0x1C; 0x1D; 0x1E; 0x1F; 0x20; 0x85; 0xA0; 0x1680;
   0x2000; 0x2001; 0x2002; 0x2003; 0x2004; 0x2005; 0x2006; 0x2007; 0x2008;
   0x2009; 0x200A; 0x2028; 0x2029; 0x202F; 0x205F; 0x3000]%N.

Definition py_isspace (cp : N) : bool := existsb (N.eqb cp) whitespace_code_points.

Definition is_continuation (b : N) : bool := ((0x80 <=? b) && (b <? 0xC0))%N.

(** U+FFFD stands for a byte that starts no well-formed sequence. *)
Definition replacement_character : N := 0xFFFD%N.

Definition decode2 (b0 b1 : N) : option N :=
  if ((0xC2 <=? b0) && (b0 <? 0xE0))%N && is_continuation b1
  then Some ((b0 - 0xC0) * 64 + (b1 - 0x80))%N
  else None.

Definition decode3 (b0 b1 b2 : N) : option N :=
  if ((0xE0 <=? b0) && (b0 <? 0xF0))%N && is_continuation b1 && is_continuation b2
  then
    let cp := ((b0 - 0xE0) * 4096 + (b1 - 0x80) * 64 + (b2 - 0x80))%N in
    if (0x800 <=? cp)%N && negb ((0xD800 <=? cp) && (cp <? 0xE000))%N
    then Some cp else None
  else None.

Definition decode4 (b0 b1 b2 b3 : N) : option N :=
  if ((0xF0 <=? b0) && (b0 <? 0xF5))%N
     && is_continuation b1 && is_continuation b2 && is_continuation b3
  then
    let cp := ((b0 - 0xF0) * 262144 + (b1 - 0x80) * 4096 + (b2 - 0x80) * 64
               + (b3 - 0x80))%N in
    if ((0x10000 <=? cp) && (cp <? 0x110000))%N then Some cp else None
  else None.

(** The code points a UTF-8 byte sequence stands for. *)
Fixpoint utf8_decode (s : string) : list N :=
  match s with
  | EmptyString => []
  | String c0 s0 =>
      let b0 := N_of_ascii c0 in
      if (b0 <? 0x80)%N then b0 :: utf8_decode s0 else
      match s0 with
      | EmptyString => [replacement_character]
      | String c1 s1 =>
          match decode2 b0 (N_of_ascii c1) with
          | Some cp => cp :: utf8_decode s1
          | None =>
              match s1 with
              | EmptyString => replacement_character :: utf8_decode s0
              | String c2 s2 =>
                  match decode3 b0 (N_of_ascii c1) (N_of_ascii c2) with
                  | Some cp => cp :: utf8_decode s2
                  | None =>
                      match s2 with
                      | EmptyString => replacement_character :: utf8_decode s0
                      | String c3 s3 =>
                          match decode4 b0 (N_of_ascii c1) (N_of_ascii c2)
                                  (N_of_ascii c3) with
                          | Some cp => cp :: utf8_decode s3
                          | None => replacement_character :: utf8_decode s0
                          end
                      end
                  end
              end
          end
      end
  end.

Definition utf8_encode_code_point (cp : N) : string :=
  if (cp <? 0x80)%N then
    String (ascii_of_N cp) EmptyString
  else if (cp <? 0x800)%N then
    String (ascii_of_N (0xC0 + cp / 64))
      (String (ascii_of_N (0x80 + cp mod 64)) EmptyString)
  else if (cp <? 0x10000)%N then
    String (ascii_of_N (0xE0 + cp / 4096))
      (String (ascii_of_N (0x80 + (cp / 64) mod 64))
         (String (ascii_of_N (0x80 + cp mod 64)) EmptyString))
  else
    String (ascii_of_N (0xF0 + cp / 262144))
      (String (ascii_of_N (0x80 + (cp / 4096) mod 64))
         (String (ascii_of_N (0x80 + (cp / 64) mod 64))
            (String (ascii_of_N (0x80 + cp mod 64)) EmptyString))).

Fixpoint utf8_encode (l : list N) : string :=
  match l with
  | [] => EmptyString
  | cp :: l' => utf8_encode_code_point cp +:+ utf8_encode l'
  end.

Definition nonempty {A} (l : list A) : bool :=
  match l with [] => false | _ :: _ => true end.

(** [str.lstrip()], [str.rstrip()] and [str.strip()] on code points. *)
Fixpoint lstrip_code_points (l : list N) : list N :=
  match l with
  | [] => []
  | cp :: l' => if py_isspace cp then lstrip_code_points l' else l
  end.

Definition rstrip_code_points (l : list N) : list N :=
  rev (lstrip_code_points (rev l)).

Definition strip (s : string) : string :=
  utf8_encode (rstrip_code_points (lstrip_code_points (utf8_decode s))).

(** Every character is white space (the empty string included). *)
Definition whitespace_only (s : string) : bool :=
  forallb py_isspace (utf8_decode s).

(** What [user_query.strip()] raises when [user_query] is [None]: [strip]
    is a method of [str]. *)
Definition none_has_no_strip : exn :=
  Exn "AttributeError" "'NoneType' object has no attribute 'strip'".

(** The Python value of a textbox: a [str] or [None]. *)
Definition textbox_value (o : option string) : value :=
  match o with
  | Some s => VStr s
  | None => VNone
  end.

(** ** External calls and the trace *)

(** One constructor per function imported from [modules], with the
    arguments [app.py] passes. *)
Inductive call : Type :=
  | change_llm_model_call (model : string)
  | extract_linkedin_profile_call (linkedin_url api_key : option string) (mock : bool)
  | split_profile_data_call (profile_data : value)
  | create_vector_database_call (nodes : value)
  | verify_embeddings_call (index : value)
  | generate_initial_facts_call (index : value)
  | answer_user_query_call (index : value) (user_query : string).

Inductive event : Type :=
  | ECall (c : call) (r : outcome value)
  | ELog (level msg : string).

(** What [app.py] imports and does not define: [config.LLM_MODEL_ID], the
    functions of [modules], [uuid.uuid4] and [str()] on library objects.
    [uuid4] is the string [str(uuid.uuid4())] drawn in this invocation;
    [str_of] is [str()] on a list, a dictionary or an object, which runs
    the [__str__] and [__repr__] of library classes and may raise.
    An environment fixes what each call answers during one invocation;
    the functions of [modules] do not touch [active_indices]. *)
Record Env : Type := {
  LLM_MODEL_ID : string;
  change_llm_model : string -> outcome value;
  extract_linkedin_profile : option string -> option string -> bool -> outcome value;
  split_profile_data : value -> outcome value;
  create_vector_database : value -> outcome value;
  verify_embeddings : value -> outcome value;
  generate_initial_facts : value -> outcome value;
  answer_user_query : value -> string -> outcome value;
  uuid4 : string;
  str_of : value -> outcome string
}.

Definition perform (env : Env) (c : call) : outcome value :=
  match c with
  | change_llm_model_call m => change_llm_model env m
  | extract_linkedin_profile_call u k m => extract_linkedin_profile env u k m
  | split_profile_data_call p => split_profile_data env p
  | create_vector_database_call n => create_vector_database env n
  | verify_embeddings_call i => verify_embeddings env i
  | generate_initial_facts_call i => generate_initial_facts env i
  | answer_user_query_call i q => answer_user_query env i q
  end.

(** [str(v)], as the f-string [{facts}] formats it. *)
Definition py_str (env : Env) (v : value) : outcome string :=
  match v with
  | VNone => Returned "None"
  | VBool true => Returned "True"
  | VBool false => Returned "False"
  | VStr s => Returned s
  | _ => str_of env v
  end.

(** ** The monad of [app.py]: session store, trace, exceptions *)

(** A computation reads and updates the dictionary [active_indices],
    emits the events it causes and either returns or raises.  Updates and
    events made before an exception stay. *)
Definition M (A : Type) : Type :=
  gmap string value -> outcome A * gmap string value * list event.

Definition ret {A} (a : A) : M A := fun st => (Returned a, st, []).

Definition bind {A B} (m : M A) (k : A -> M B) : M B :=
  fun st =>
    match m st with
    | (Returned a, st1, t1) =>
        match k a st1 with
        | (r, st2, t2) => (r, st2, t1 ++ t2)
        end
    | (Raised e, st1, t1) => (Raised e, st1, t1)
    end.

(** [try: m except Exception as e: h e] *)
Definition try_except {A} (m : M A) (h : exn -> M A) : M A :=
  fun st =>
    match m st with
    | (Returned a, st1, t1) => (Returned a, st1, t1)
    | (Raised e, st1, t1) =>
        match h e st1 with
        | (r, st2, t2) => (r, st2, t1 ++ t2)
        end
    end.

Definition lift {A} (r : outcome A) : M A := fun st => (r, st, []).

Definition do_call (env : Env) (c : call) : M value :=
  fun st => (perform env c, st, [ECall c (perform env c)]).

Definition log (level msg : string) : M unit :=
  fun st => (Returned tt, st, [ELog level msg]).

(** [active_indices[k] = v] *)
Definition setitem (k : string) (v : value) : M unit :=
  fun st => (Returned tt, <[k := v]> st, []).

(** A session id is a string or [None]; [None] is never a key. *)
Definition lookup_session (session_id : option string)
    (active_indices : gmap string value) : option value :=
  match session_id with
  | Some s => active_indices !! s
  | None => None
  end.

(** [k in active_indices] *)
Definition contains (session_id : option string) : M bool :=
  fun st =>
    (Returned (match lookup_session session_id st with Some _ => true | None => false end),
     st, []).

Definition py_repr_key (session_id : option string) : string :=
  match session_id with
  | Some s => "'" +:+ s +:+ "'"
  | None => "None"
  end.

(** [active_indices[k]] *)
Definition getitem (session_id : option string) : M value :=
  fun st =>
    match lookup_session session_id st with
    | Some v => (Returned v, st, [])
    | None => (Raised (Exn "KeyError" (py_repr_key session_id)), st, [])
    end.

Declare Scope app_scope.
Delimit Scope app_scope with app.
Notation "x <- c ;; k" := (bind c (fun x => k))
  (at level 100, c at next level, right associativity) : app_scope.
Notation "c ;;; k" := (bind c (fun _ => k))
  (at level 100, right associativity) : app_scope.
Local Open Scope app_scope.

(** ** [process_profile] *)

Definition nl : string := String (ascii_of_nat 10) EmptyString.

Definition default_mock_url : string := "https://www.linkedin.com/in/leonkatsnelson/".

Definition msg_no_profile_data : string :=
  "Failed to retrieve profile data. Please check the URL or API key.".
Definition msg_no_nodes : string := "Failed to process profile data into nodes.".
Definition msg_no_index : string := "Failed to create vector database.".
Definition msg_embeddings : string := "Some embeddings may be missing or invalid".

Definition msg_success (facts : string) : string :=
  "Profile processed successfully!" +:+ nl +:+ nl +:+
  "Here are 3 interesting facts about this person:" +:+ nl +:+ nl +:+ facts.

(** The URL handed to the scraper: the default one in mock mode when none
    was given. *)
Definition effective_url (linkedin_url : option string) (use_mock : bool) : option string :=
  if use_mock && negb (truthy_opt linkedin_url)
  then Some default_mock_url
  else linkedin_url.

(** The body of the [try] block.  [linkedin_url] and [api_key] are
    textbox values (a string or [None]), [use_mock] is a checkbox value and
    [selected_model] a dropdown value. *)
Definition process_profile_try (env : Env) (linkedin_url api_key : option string)
    (use_mock : bool) (selected_model : string) : M (string * option string) :=
  (if negb (String.eqb selected_model (LLM_MODEL_ID env))
   then do_call env (change_llm_model_call selected_model)
   else ret VNone) ;;;
  let linkedin_url := effective_url linkedin_url use_mock in
  profile_data <- do_call env
    (extract_linkedin_profile_call linkedin_url
       (if negb use_mock then api_key else None) use_mock) ;;
  if negb (truthy profile_data) then ret (msg_no_profile_data, None) else
  nodes <- do_call env (split_profile_data_call profile_data) ;;
  if negb (truthy nodes) then ret (msg_no_nodes, None) else
  index <- do_call env (create_vector_database_call nodes) ;;
  if negb (truthy index) then ret (msg_no_index, None) else
  verified <- do_call env (verify_embeddings_call index) ;;
  (if negb (truthy verified) then log "WARNING" msg_embeddings else ret tt) ;;;
  facts <- do_call env (generate_initial_facts_call index) ;;
  let session_id := uuid4 env in
  setitem session_id index ;;;
  facts_text <- lift (py_str env facts) ;;
  ret (msg_success facts_text, Some session_id).

(** The [except Exception as e] handler. *)
Definition process_profile_except (e : exn) : M (string * option string) :=
  log "ERROR" ("Error in process_profile: " +:+ exn_str e) ;;;
  ret ("Error: " +:+ exn_str e, None).

Definition process_profile (env : Env) (linkedin_url api_key : option string)
    (use_mock : bool) (selected_model : string) : M (string * option string) :=
  try_except
    (process_profile_try env linkedin_url api_key use_mock selected_model)
    process_profile_except.

(** ** [chat_with_profile] *)

Definition msg_no_session : string :=
  "No profile loaded. Please process a LinkedIn profile first.".
Definition msg_expired : string :=
  "Session expired. Please process the LinkedIn profile again.".

(** [chat_history + [[user_query, reply]]] *)
Definition append_turn (chat_history : list (list value)) (user_query : value)
    (reply : value) : list (list value) :=
  chat_history ++ [[user_query; reply]].

(** The body of the [try] block, which is reached only after
    [user_query.strip()] went through, that is with a string. *)
Definition chat_with_profile_try (env : Env) (session_id : option string)
    (user_query : string) (chat_history : list (list value)) : M (list (list value)) :=
  index <- getitem session_id ;;
  response <- do_call env (answer_user_query_call index user_query) ;;
  reply <- lift (getattr response "response") ;;
  ret (append_turn chat_history (VStr user_query) reply).

Definition chat_with_profile_except (user_query : string)
    (chat_history : list (list value)) (e : exn) : M (list (list value)) :=
  log "ERROR" ("Error in chat_with_profile: " +:+ exn_str e) ;;;
  ret (append_turn chat_history (VStr user_query) (VStr ("Error: " +:+ exn_str e))).

(** [session_id] and [user_query] are textbox values (a string or [None];
    [None] is what [process_profile] returns as session id on failure) and
    [chat_history] is a list of two-element lists.  The three guards stand
    before the [try]: what [user_query.strip()] raises is not caught. *)
Definition chat_with_profile (env : Env) (session_id : option string)
    (user_query : option string) (chat_history : list (list value))
    : M (list (list value)) :=
  if negb (truthy_opt session_id)
  then ret (append_turn chat_history (textbox_value user_query) (VStr msg_no_session))
  else
    present <- contains session_id ;;
    if negb present
    then ret (append_turn chat_history (textbox_value user_query) (VStr msg_expired))
    else
      match user_query with
      | None => lift (Raised none_has_no_strip)
      | Some user_query =>
          if negb (truthy_str (strip user_query))
          then ret chat_history
          else
            try_except
              (chat_with_profile_try env session_id user_query chat_history)
              (chat_with_profile_except user_query chat_history)
      end.

(** ** Observing a run *)

Definition result_of {A} (r : outcome A * gmap string value * list event) : outcome A := r.1.1.
Definition store_of {A} (r : outcome A * gmap string value * list event) : gmap string value := r.1.2.
Definition trace_of {A} (r : outcome A * gmap string value * list event) : list event := r.2.

(** The function a call goes to. *)
Inductive stage : Type :=
  | change_llm_model_stage
  | extract_linkedin_profile_stage
  | split_profile_data_stage
  | create_vector_database_stage
  | verify_embeddings_stage
  | generate_initial_facts_stage
  | answer_user_query_stage.

Definition stage_of (c : call) : stage :=
  match c with
  | change_llm_model_call _ => change_llm_model_stage
  | extract_linkedin_profile_call _ _ _ => extract_linkedin_profile_stage
  | split_profile_data_call _ => split_profile_data_stage
  | create_vector_database_call _ => create_vector_database_stage
  | verify_embeddings_call _ => verify_embeddings_stage
  | generate_initial_facts_call _ => generate_initial_facts_stage
  | answer_user_query_call _ _ => answer_user_query_stage
  end.

Definition stage_eqb (a b : stage) : bool :=
  match a, b with
  | change_llm_model_stage, change_llm_model_stage
  | extract_linkedin_profile_stage, extract_linkedin_profile_stage
  | split_profile_data_stage, split_profile_data_stage
  | create_vector_database_stage, create_vector_database_stage
  | verify_embeddings_stage, verify_embeddings_stage
  | generate_initial_facts_stage, generate_initial_facts_stage
  | answer_user_query_stage, answer_user_query_stage => true
  | _, _ => false
  end.

(** The calls of a trace, in order, without the log lines. *)
Fixpoint calls_of (t : list event) : list (call * outcome value) :=
  match t with
  | [] => []
  | ECall c r :: t' => (c, r) :: calls_of t'
  | ELog _ _ :: t' => calls_of t'
  end.

(** The calls of the RAG pipeline proper: everything but the model switch. *)
Definition pipeline_calls (t : list event) : list (call * outcome value) :=
  List.filter (fun cr => negb (stage_eqb (stage_of cr.1) change_llm_model_stage)) (calls_of t).

(** How often a trace calls a given function. *)
Definition count_stage (s : stage) (t : list event) : nat :=
  length (List.filter (fun cr => stage_eqb (stage_of cr.1) s) (calls_of t)).

(** A call failed: it raised, or it is one of the three guarded stages and
    returned something falsy. *)
Definition failed (c : call) (r : outcome value) : bool :=
  match r with
  | Raised _ => true
  | Returned v =>
      match stage_of c with
      | extract_linkedin_profile_stage
      | split_profile_data_stage
      | create_vector_database_stage => negb (truthy v)
      | _ => false
      end
  end.

(** No call follows a failed call. *)
Fixpoint stops_at_failure (t : list event) : bool :=
  match t with
  | [] => true
  | ECall c r :: t' =>
      (if failed c r then match calls_of t' with [] => true | _ :: _ => false end
       else true)
      && stops_at_failure t'
  | ELog _ _ :: t' => stops_at_failure t'
  end.

(** ** A concrete environment *)

Module Demo.

Definition profile : value :=
  VDict [("full_name", VStr "Leon Katsnelson"); ("headline", VStr "Director & CTO")].
Definition nodes : value := VList [VStr "Leon Katsnelson"; VStr "Director & CTO"].
Definition index : value := VObj "VectorStoreIndex" true [].
Definition facts : value := VStr "1. Leads a team. 2. Writes books. 3. Teaches.".
Definition response : value :=
  VObj "Response" true [("response", VStr "Director & CTO")].
Definition sid : string := "0b0e7a2c-5d0f-4c63-9a55-1f6a2c9d8e11".
Definition granite : string := "ibm/granite-3-2-8b-instruct".
Definition llama : string := "meta-llama/llama-3-3-70b-instruct".

(** Every library call succeeds. *)
Definition env : Env := {|
  LLM_MODEL_ID := granite;
  change_llm_model := fun _ => Returned VNone;
  extract_linkedin_profile := fun _ _ _ => Returned profile;
  split_profile_data := fun _ => Returned nodes;
  create_vector_database := fun _ => Returned index;
  verify_embeddings := fun _ => Returned (VBool true);
  generate_initial_facts := fun _ => Returned facts;
  answer_user_query := fun _ _ => Returned response;
  uuid4 := sid;
  str_of := fun _ => Returned "<object>"
|}.

Definition timeout : exn := Exn "TimeoutError" "request timed out".

(** [active_indices] after one profile was processed. *)
Definition store : gmap string value := {[ sid := index ]}.

(** The same, with [extract_linkedin_profile] replaced. *)
Definition with_extract (f : option string -> option string -> bool -> outcome value)
    (e : Env) : Env :=
  {| LLM_MODEL_ID := LLM_MODEL_ID e; change_llm_model := change_llm_model e;
     extract_linkedin_profile := f;
     split_profile_data := split_profile_data e;
     create_vector_database := create_vector_database e;
     verify_embeddings := verify_embeddings e;
     generate_initial_facts := generate_initial_facts e;
     answer_user_query := answer_user_query e;
     uuid4 := uuid4 e; str_of := str_of e |}.

(** The same, with [generate_initial_facts] replaced. *)
Definition with_generate (f : value -> outcome value) (e : Env) : Env :=
  {| LLM_MODEL_ID := LLM_MODEL_ID e; change_llm_model := change_llm_model e;
     extract_linkedin_profile := extract_linkedin_profile e;
     split_profile_data := split_profile_data e;
     create_vector_database := create_vector_database e;
     verify_embeddings := verify_embeddings e;
     generate_initial_facts := f;
     answer_user_query := answer_user_query e;
     uuid4 := uuid4 e; str_of := str_of e |}.

(** The same, with [str()] on library objects replaced. *)
Definition with_str_of (f : value -> outcome string) (e : Env) : Env :=
  {| LLM_MODEL_ID := LLM_MODEL_ID e; change_llm_model := change_llm_model e;
     extract_linkedin_profile := extract_linkedin_profile e;
     split_profile_data := split_profile_data e;
     create_vector_database := create_vector_database e;
     verify_embeddings := verify_embeddings e;
     generate_initial_facts := generate_initial_facts e;
     answer_user_query := answer_user_query e;
     uuid4 := uuid4 e; str_of := f |}.

(** Facts that come as an object whose [__str__] raises. *)
Definition broken_facts : value := VObj "Response" true [].
Definition broken_str : exn := Exn "TypeError" "__str__ returned non-string".
Definition env_broken_facts : Env :=
  with_str_of (fun _ => Raised broken_str)
    (with_generate (fun _ => Returned broken_facts) env).

(** The LLM is down: [generate_initial_facts] raises, and embedding
    verification had returned [False]. *)
Definition env_llm_down : Env :=
  with_generate (fun _ => Raised timeout) env.

End Demo.

(** The environment [env] with [verify_embeddings] replaced by [f]. *)
Definition with_verify_embeddings (f : value -> outcome value) (e : Env) : Env :=
  {| LLM_MODEL_ID := LLM_MODEL_ID e; change_llm_model := change_llm_model e;
     extract_linkedin_profile := extract_linkedin_profile e;
     split_profile_data := split_profile_data e;
     create_vector_database := create_vector_database e;
     verify_embeddings := f;
     generate_initial_facts := generate_initial_facts e;
     answer_user_query := answer_user_query e;
     uuid4 := uuid4 e; str_of := str_of e |}.

(** ** The event wiring of [create_gradio_interface] *)

(** The components the two handlers write to: the textbox [result_text],
    the hidden textbox [session_id] and the [chatbot].  The other
    components ([linkedin_url], [api_key], [use_mock], [model_dropdown],
    [chat_input]) are only read, and hold what the user put there when the
    event fires. *)
Record ui : Type := {
  result_text : string;
  session_id_box : option string;
  chatbot : list (list value)
}.

(** The three events bound in [create_gradio_interface], each with the
    values of the user-edited input components at that moment and the
    environment that answers the calls made while it is handled. *)
Inductive gesture : Type :=
  | process_btn_click (env : Env) (linkedin_url api_key : option string)
      (use_mock : bool) (model_dropdown : string)
  | chat_btn_click (env : Env) (chat_input : option string)
  | chat_input_submit (env : Env) (chat_input : option string).

(** [process_btn.click(fn=process_profile, inputs=[linkedin_url, api_key,
    use_mock, model_dropdown], outputs=[result_text, session_id])] and
    [chat_btn.click] / [chat_input.submit] [(fn=chat_with_profile,
    inputs=[session_id, chat_input, chatbot], outputs=[chatbot])]: the
    values of the input components are the arguments, the values returned
    become the values of the output components (the chatbot shows the
    history as it was returned, which takes replies that are strings). *)
Definition handle (g : gesture) (u : ui) : M ui :=
  match g with
  | process_btn_click env linkedin_url api_key use_mock model_dropdown =>
      out <- process_profile env linkedin_url api_key use_mock model_dropdown ;;
      ret {| result_text := out.1; session_id_box := out.2; chatbot := chatbot u |}
  | chat_btn_click env chat_input
  | chat_input_submit env chat_input =>
      h <- chat_with_profile env (session_id_box u) chat_input (chatbot u) ;;
      ret {| result_text := result_text u; session_id_box := session_id_box u;
             chatbot := h |}
  end.

(** One browser session: the events are handled one after the other on the
    same [active_indices]; a handler that raised would leave the components
    as they were. *)
Fixpoint serve (gs : list gesture) (u : ui) (active_indices : gmap string value)
    : ui * gmap string value * list event :=
  match gs with
  | [] => (u, active_indices, [])
  | g :: gs' =>
      match handle g u active_indices with
      | (Returned u', st', t) =>
          match serve gs' u' st' with
          | (u'', st'', t') => (u'', st'', t ++ t')
          end
      | (Raised _, st', t) =>
          match serve gs' u st' with
          | (u'', st'', t') => (u'', st'', t ++ t')
          end
      end
  end.

(** The session id on the page is empty or a key of [active_indices]. *)
Definition session_known (u : ui) (active_indices : gmap string value) : Prop :=
  truthy_opt (session_id_box u) = true ->
  lookup_session (session_id_box u) active_indices <> None.

(** The identifier drawn while a gesture is handled, if it is one that
    processes a profile. *)
Definition drawn_uuid (g : gesture) : option string :=
  match g with
  | process_btn_click env _ _ _ _ => Some (uuid4 env)
  | chat_btn_click _ _ | chat_input_submit _ _ => None
  end.

Definition is_chat (g : gesture) : bool :=
  match g with
  | process_btn_click _ _ _ _ _ => false
  | chat_btn_click _ _ | chat_input_submit _ _ => true
  end.

(** The page and the dictionary that [serve] ends with. *)
Definition page_of (r : ui * gmap string value * list event) : ui := r.1.1.
Definition indices_of (r : ui * gmap string value * list event) : gmap string value :=
  r.1.2.

(** The page as it is first served. *)
Definition initial_ui : ui :=
  {| result_text := ""; session_id_box := None; chatbot := [] |}.

(** ** Symbolic execution *)

(** Unfolds the monad and splits on every outcome and every guard met on
    the way, leaving one goal per path through the function. *)
Ltac step_run :=
  match goal with
  | |- context [match ?x with _ => _ end] =>
      lazymatch x with
      | context [match _ with _ => _ end] => fail
      | _ => destruct x eqn:?
      end
  | H : context [match ?x with _ => _ end] |- _ =>
      lazymatch x with
      | context [match _ with _ => _ end] => fail
      | _ => destruct x eqn:?
      end
  end.

Ltac unfold_app :=
  unfold process_profile, process_profile_try, process_profile_except,
    chat_with_profile, chat_with_profile_try, chat_with_profile_except,
    try_except, bind, do_call, ret, log, setitem, lift, contains, getitem,
    append_turn,
    result_of, store_of, trace_of in *;
  cbn [perform fst snd negb textbox_value] in *.

Ltac clean_guards :=
  repeat match goal with
    | H : negb _ = true |- _ => apply negb_true_iff in H
    | H : negb _ = false |- _ => apply negb_false_iff in H
    end.

Ltac use_guards :=
  repeat match goal with
    | H : truthy _ = _ |- _ => rewrite H
    end.

Ltac run_app :=
  unfold_app; repeat (step_run; cbn [perform fst snd negb app] in * );
  clean_guards.

(** ** [strip] and blank queries *)

Lemma nonempty_lstrip l :
  nonempty (lstrip_code_points l) = negb (forallb py_isspace l).
Proof.
  induction l as [|cp l IH]; cbn [lstrip_code_points forallb]; [done|].
  destruct (py_isspace cp); cbn [nonempty negb andb]; done.
Qed.

Lemma forallb_lstrip l :
  forallb py_isspace (lstrip_code_points l) = forallb py_isspace l.
Proof.
  induction l as [|cp l IH]; cbn [lstrip_code_points forallb]; [done|].
  destruct (py_isspace cp) eqn:E; cbn [forallb andb]; [done|]. by rewrite E.
Qed.

Lemma forallb_rev {A} (p : A -> bool) (l : list A) : forallb p (rev l) = forallb p l.
Proof.
  induction l as [|x l IH]; cbn; [done|].
  rewrite forallb_app, IH. cbn. rewrite andb_true_r. apply andb_comm.
Qed.

Lemma nonempty_rev {A} (l : list A) : nonempty (rev l) = nonempty l.
Proof.
  destruct l as [|x l]; cbn; [done|]. destruct (rev l); reflexivity.
Qed.

Lemma truthy_utf8_encode l : truthy_str (utf8_encode l) = nonempty l.
Proof.
  destruct l as [|cp l]; [done|].
  cbn [utf8_encode nonempty]. unfold utf8_encode_code_point.
  repeat case_match; reflexivity.
Qed.

(** [not user_query.strip()] holds exactly for the queries made of white
    space only. *)
Lemma strip_whitespace_only s : truthy_str (strip s) = negb (whitespace_only s).
Proof.
  unfold strip, rstrip_code_points, whitespace_only.
  rewrite truthy_utf8_encode, nonempty_rev, nonempty_lstrip, forallb_rev.
  by rewrite forallb_lstrip.
Qed.

(** On white space the encoder and the decoder agree. *)
Lemma whitespace_round_trip cp :
  py_isspace cp = true -> utf8_decode (utf8_encode_code_point cp) = [cp].
Proof.
  unfold py_isspace. intros H. apply existsb_exists in H as (x & Hx & Heq).
  apply N.eqb_eq in Heq as ->.
  cbn [whitespace_code_points In] in Hx.
  repeat (destruct Hx as [<-|Hx]; [reflexivity|]). destruct Hx.
Qed.

Example strip_example : strip "  What does she do?  " = "What does she do?".
Proof. reflexivity. Qed.

Example ideographic_space_bytes :
  utf8_encode [0x3000%N]
  = String (ascii_of_nat 227) (String (ascii_of_nat 128) (String (ascii_of_nat 128) "")).
Proof. reflexivity. Qed.

Example ideographic_space_is_blank :
  whitespace_only (utf8_encode [0x3000; 0x20; 0x2003; 0xA0]%N) = true
  /\ strip (utf8_encode [0x3000; 0x20; 0x2003; 0xA0]%N) = "".
Proof. split; reflexivity. Qed.

Example zero_width_space_is_not_blank :
  whitespace_only (utf8_encode [0x200B%N]) = false.
Proof. reflexivity. Qed.

(** ** The pipeline of [process_profile] *)

(** C1. A successful invocation of [process_profile] (one that returns a
    session id) has called, in this order and each exactly once,
    [extract_linkedin_profile], [split_profile_data] on the profile that
    came back, [create_vector_database] on the nodes that came back,
    [verify_embeddings] on the index that came back and
    [generate_initial_facts] on that same index; the message returned
    carries the generated facts. *)
Theorem process_profile_pipeline_order env url key mock model st msg sid :
  result_of (process_profile env url key mock model st) = Returned (msg, Some sid) ->
  exists profile_data nodes index verified facts facts_text,
    pipeline_calls (trace_of (process_profile env url key mock model st)) =
      [ (extract_linkedin_profile_call (effective_url url mock)
           (if negb mock then key else None) mock, Returned profile_data);
        (split_profile_data_call profile_data, Returned nodes);
        (create_vector_database_call nodes, Returned index);
        (verify_embeddings_call index, Returned verified);
        (generate_initial_facts_call index, Returned facts) ]
    /\ py_str env facts = Returned facts_text
    /\ msg = msg_success facts_text.
Proof.
  intros H. run_app; try discriminate.
  all: injection H as <- <-.
  all: do 6 eexists; split; [reflexivity|]; split; [eassumption | reflexivity].
Qed.

Lemma process_profile_pipeline_order_witness :
  exists profile_data nodes index verified facts facts_text,
    pipeline_calls
      (trace_of (process_profile Demo.env None (Some "secret") true Demo.llama ∅)) =
      [ (extract_linkedin_profile_call (Some default_mock_url) None true,
         Returned profile_data);
        (split_profile_data_call profile_data, Returned nodes);
        (create_vector_database_call nodes, Returned index);
        (verify_embeddings_call index, Returned verified);
        (generate_initial_facts_call index, Returned facts) ]
    /\ py_str Demo.env facts = Returned facts_text
    /\ msg_success "1. Leads a team. 2. Writes books. 3. Teaches."
       = msg_success facts_text.
Proof.
  apply (process_profile_pipeline_order Demo.env None (Some "secret") true
           Demo.llama ∅ _ Demo.sid).
  reflexivity.
Defined.

(** ** Failure handling *)

(** C2, as stated, fails: [user_query.strip()] stands before the [try] of
    [chat_with_profile], so with a session id that is a key of
    [active_indices] a query that is [None] raises [AttributeError] to the
    caller. *)
Lemma none_query_raises_to_the_caller :
  Demo.store !! Demo.sid = Some Demo.index
  /\ chat_with_profile Demo.env (Some Demo.sid) None [] Demo.store
     = (Raised (Exn "AttributeError" "'NoneType' object has no attribute 'strip'"),
        Demo.store, []).
Proof.
  split; [apply lookup_singleton_eq | reflexivity].
Qed.

(** C2, amended.  [process_profile] always returns, never raises.
    Whenever the [try] block raises [e], and in particular whenever one of
    the calls it made raised [e], it returns the string
    ["Error: " + str(e)] and [None]; whenever profile extraction, node
    splitting or index creation returned something falsy it returns that
    stage's failure message and [None].  [chat_with_profile], given a
    query that is a string, always returns too, and whenever the call of
    [answer_user_query] raised [e], or its result has no attribute
    [response] so that reading it raised [e], the history returned is the
    given one with the pair of the query and ["Error: " + str(e)] appended;
    so it is for any exception [e] raised by the [try] block once the
    guards before it are passed. *)
Theorem failures_become_error_strings env url key mock model session_id user_query
    chat_history st :
  let run := process_profile env url key mock model st in
  let chat := chat_with_profile env session_id (Some user_query) chat_history st in
  (exists msg sid, result_of run = Returned (msg, sid))
  /\ (forall e, result_of (process_profile_try env url key mock model st) = Raised e ->
        result_of run = Returned ("Error: " +:+ exn_str e, None))
  /\ (forall c e, In (ECall c (Raised e)) (trace_of run) ->
        result_of run = Returned ("Error: " +:+ exn_str e, None))
  /\ (forall u k m v,
        In (ECall (extract_linkedin_profile_call u k m) (Returned v)) (trace_of run) ->
        truthy v = false -> result_of run = Returned (msg_no_profile_data, None))
  /\ (forall p v,
        In (ECall (split_profile_data_call p) (Returned v)) (trace_of run) ->
        truthy v = false -> result_of run = Returned (msg_no_nodes, None))
  /\ (forall n v,
        In (ECall (create_vector_database_call n) (Returned v)) (trace_of run) ->
        truthy v = false -> result_of run = Returned (msg_no_index, None))
  /\ (exists chat_history', result_of chat = Returned chat_history')
  /\ (forall e,
        truthy_opt session_id = true -> lookup_session session_id st <> None ->
        whitespace_only user_query = false ->
        result_of (chat_with_profile_try env session_id user_query chat_history st)
        = Raised e ->
        result_of chat =
          Returned (chat_history ++ [[VStr user_query; VStr ("Error: " +:+ exn_str e)]]))
  /\ (forall c e, In (ECall c (Raised e)) (trace_of chat) ->
        result_of chat =
          Returned (chat_history ++ [[VStr user_query; VStr ("Error: " +:+ exn_str e)]]))
  /\ (forall c response e, In (ECall c (Returned response)) (trace_of chat) ->
        getattr response "response" = Raised e ->
        result_of chat =
          Returned (chat_history ++ [[VStr user_query; VStr ("Error: " +:+ exn_str e)]])).
Proof.
  cbn zeta. repeat split.
  - run_app; eauto.
  - intros e H. run_app; congruence.
  - intros c e H. run_app; cbn [In] in H; intuition congruence.
  - intros u k m v H Hv. run_app; cbn [In] in H; intuition congruence.
  - intros p v H Hv. run_app; cbn [In] in H; intuition congruence.
  - intros n v H Hv. run_app; cbn [In] in H; intuition congruence.
  - run_app; eauto.
  - intros e H1 H2 H3 H.
    run_app; rewrite ?strip_whitespace_only in *; clean_guards; congruence.
  - intros c e H. run_app; cbn [In] in H; intuition congruence.
  - intros c response e H Hg. run_app; cbn [In] in H; intuition congruence.
Qed.

Lemma failures_become_error_strings_witness :
  result_of
    (process_profile (Demo.with_extract (fun _ _ _ => Raised Demo.timeout) Demo.env)
       (Some "https://www.linkedin.com/in/someone/") (Some "secret") false
       Demo.granite ∅)
  = Returned ("Error: request timed out", None).
Proof.
  pose proof (failures_become_error_strings
                (Demo.with_extract (fun _ _ _ => Raised Demo.timeout) Demo.env)
                (Some "https://www.linkedin.com/in/someone/") (Some "secret") false
                Demo.granite None "" [] ∅) as H.
  cbn zeta in H. destruct H as (_ & _ & H & _).
  apply (H (extract_linkedin_profile_call
              (Some "https://www.linkedin.com/in/someone/") (Some "secret") false)
           Demo.timeout).
  left. reflexivity.
Defined.

(** ** Routing of chat queries *)

(** C3, as stated, fails: with a session id that is a key of
    [active_indices] and a query of blanks only, [answer_user_query] is not
    invoked and no answer is appended. *)
Lemma blank_query_is_not_answered :
  Demo.store !! Demo.sid = Some Demo.index
  /\ whitespace_only "   " = true
  /\ chat_with_profile Demo.env (Some Demo.sid) (Some "   ") [] Demo.store
     = (Returned [], Demo.store, [])
  /\ ~ (exists r,
         In (ECall (answer_user_query_call Demo.index "   ") r)
            (trace_of
               (chat_with_profile Demo.env (Some Demo.sid) (Some "   ") [] Demo.store))).
Proof.
  split; [apply lookup_singleton_eq|].
  split; [reflexivity|]. split; [reflexivity|].
  intros [r H]. vm_compute in H. exact H.
Qed.

(** C3, amended.  A falsy session id gets the "No profile loaded" reply and
    a truthy one that is not a key gets the "Session expired" reply, both
    without any call, whatever the query.  A truthy session id that is a
    key routes a query that is a string and not blank to exactly one call
    of [answer_user_query], on the index stored under that key and the
    query, whose [response] attribute is the reply appended; a query that
    is a blank string is returned the history unchanged and calls
    nothing. *)
Theorem chat_with_profile_routing env session_id user_query chat_history st :
  let run := chat_with_profile env session_id user_query chat_history st in
  (truthy_opt session_id = false ->
     run = (Returned (chat_history
                      ++ [[textbox_value user_query; VStr msg_no_session]]), st, []))
  /\ (truthy_opt session_id = true -> lookup_session session_id st = None ->
        run = (Returned (chat_history
                         ++ [[textbox_value user_query; VStr msg_expired]]), st, []))
  /\ (forall index q,
        truthy_opt session_id = true -> lookup_session session_id st = Some index ->
        user_query = Some q -> whitespace_only q = true ->
        run = (Returned chat_history, st, []))
  /\ (forall index q,
        truthy_opt session_id = true -> lookup_session session_id st = Some index ->
        user_query = Some q -> whitespace_only q = false ->
        calls_of (trace_of run) =
          [(answer_user_query_call index q, answer_user_query env index q)]
        /\ forall response reply,
             answer_user_query env index q = Returned response ->
             getattr response "response" = Returned reply ->
             result_of run = Returned (chat_history ++ [[VStr q; reply]])).
Proof.
  cbn zeta. repeat split; intros.
  all: run_app; rewrite ?strip_whitespace_only in *; clean_guards.
  all: try congruence.
  all: simplify_eq; cbn [calls_of]; congruence.
Qed.

Lemma chat_with_profile_routing_witness :
  calls_of
    (trace_of
       (chat_with_profile Demo.env (Some Demo.sid) (Some "What is her job title?") []
          Demo.store))
  = [(answer_user_query_call Demo.index "What is her job title?",
      Returned Demo.response)]
  /\ result_of
       (chat_with_profile Demo.env (Some Demo.sid) (Some "What is her job title?") []
          Demo.store)
     = Returned [[VStr "What is her job title?"; VStr "Director & CTO"]].
Proof.
  pose proof (chat_with_profile_routing Demo.env (Some Demo.sid)
                (Some "What is her job title?") [] Demo.store) as H.
  cbn zeta in H. destruct H as (_ & _ & _ & H).
  destruct (H Demo.index "What is her job title?" eq_refl (lookup_singleton_eq _ _)
              eq_refl eq_refl) as [Hc Hr].
  split; [exact Hc|].
  exact (Hr Demo.response (VStr "Director & CTO") eq_refl eq_refl).
Defined.

(** ** Mock mode *)

(** C4. In mock mode every call of [extract_linkedin_profile] made by
    [process_profile] passes [None] as API key and [True] as [mock], and
    passes the given URL, or the fixed default URL when none was given;
    the call is made, once, unless switching the model raised first. *)
Theorem mock_mode_extract_arguments env url key model st :
  let run := process_profile env url key true model st in
  let url' := if truthy_opt url then url else Some default_mock_url in
  (forall u k m r,
     In (ECall (extract_linkedin_profile_call u k m) r) (trace_of run) ->
     u = url' /\ k = None /\ m = true)
  /\ (model = LLM_MODEL_ID env \/ (exists v, change_llm_model env model = Returned v) ->
      In (ECall (extract_linkedin_profile_call url' None true)
            (extract_linkedin_profile env url' None true)) (trace_of run)
      /\ count_stage extract_linkedin_profile_stage (trace_of run) = 1).
Proof.
  cbn zeta. split.
  - intros u k m r H.
    destruct (truthy_opt url) eqn:Hu.
    all: run_app; unfold effective_url in *; rewrite ?Hu in *.
    all: cbn [In andb negb] in *; intuition congruence.
  - intros Hmodel.
    assert (negb (model =? LLM_MODEL_ID env)%string = false
            \/ exists v, change_llm_model env model = Returned v) as Hm.
    { destruct Hmodel as [->|Hv]; [left|by right].
      by rewrite String.eqb_refl. }
    clear Hmodel.
    destruct (truthy_opt url) eqn:Hu.
    all: run_app; unfold effective_url in *; rewrite ?Hu in *.
    all: unfold count_stage; cbn in *.
    all: try (split; [intuition congruence | reflexivity]).
    all: destruct Hm as [Hm|[v Hm]]; congruence.
Qed.

Lemma mock_mode_extract_arguments_witness :
  In (ECall (extract_linkedin_profile_call (Some default_mock_url) None true)
        (Returned Demo.profile))
     (trace_of (process_profile Demo.env (Some "") (Some "secret") true Demo.llama ∅))
  /\ count_stage extract_linkedin_profile_stage
       (trace_of (process_profile Demo.env (Some "") (Some "secret") true Demo.llama ∅))
     = 1.
Proof.
  pose proof (mock_mode_extract_arguments Demo.env (Some "") (Some "secret")
                Demo.llama ∅) as H.
  cbn zeta in H. destruct H as [_ H].
  apply H. right. exists VNone. reflexivity.
Defined.

(** ** The session store *)

(** C5. A successful invocation of [process_profile] returns the
    identifier drawn from [uuid4] in that invocation and leaves
    [active_indices] as it was except for that key, which now maps to the
    index that [create_vector_database] returned in this invocation; so
    the returned session id is a key of [active_indices].  When the
    identifier is fresh, the dictionary has gained exactly that one entry. *)
Theorem successful_run_stores_session env url key mock model st msg sid :
  let run := process_profile env url key mock model st in
  result_of run = Returned (msg, Some sid) ->
  sid = uuid4 env
  /\ exists nodes index,
       In (ECall (create_vector_database_call nodes) (Returned index)) (trace_of run)
       /\ store_of run = <[sid := index]> st
       /\ store_of run !! sid = Some index
       /\ (forall k, k <> sid -> store_of run !! k = st !! k)
       /\ (st !! sid = None ->
           dom (store_of run) = {[sid]} ∪ dom st
           /\ size (store_of run) = S (size st)).
Proof.
  cbn zeta. intros H.
  assert (sid = uuid4 env
          /\ exists nodes index,
               In (ECall (create_vector_database_call nodes) (Returned index))
                  (trace_of (process_profile env url key mock model st))
               /\ store_of (process_profile env url key mock model st)
                  = <[sid := index]> st) as (Hsid & nodes & index & Hin & Hst).
  { run_app; try discriminate.
    all: injection H as <- <-; split; [reflexivity|].
    all: do 2 eexists; split; [|reflexivity].
    all: cbn [In]; tauto. }
  split; [exact Hsid|]. exists nodes, index.
  split; [exact Hin|]. split; [exact Hst|]. rewrite Hst.
  split; [apply lookup_insert_eq|].
  split; [intros k Hk; by apply lookup_insert_ne|].
  intros Hfresh. split; [apply dom_insert_L | by apply map_size_insert_None].
Qed.

Lemma successful_run_stores_session_witness :
  Demo.sid = uuid4 Demo.env
  /\ exists nodes index,
       In (ECall (create_vector_database_call nodes) (Returned index))
          (trace_of (process_profile Demo.env None None true Demo.granite ∅))
       /\ store_of (process_profile Demo.env None None true Demo.granite ∅)
          = <[Demo.sid := index]> ∅
       /\ store_of (process_profile Demo.env None None true Demo.granite ∅) !! Demo.sid
          = Some index
       /\ (forall k, k <> Demo.sid ->
           store_of (process_profile Demo.env None None true Demo.granite ∅) !! k
           = (∅ : gmap string value) !! k)
       /\ ((∅ : gmap string value) !! Demo.sid = None ->
           dom (store_of (process_profile Demo.env None None true Demo.granite ∅))
           = {[Demo.sid]} ∪ dom (∅ : gmap string value)
           /\ size (store_of (process_profile Demo.env None None true Demo.granite ∅))
              = S (size (∅ : gmap string value))).
Proof.
  apply (successful_run_stores_session Demo.env None None true Demo.granite ∅
           (msg_success "1. Leads a team. 2. Writes books. 3. Teaches.") Demo.sid).
  reflexivity.
Defined.

(** C8, as stated, fails: the index is stored before the message is
    formatted, inside the [try]; when [str()] of the generated facts
    raises, [process_profile] returns [None] as session id and the new
    entry is in [active_indices]. *)
Lemma session_stored_though_none_returned :
  process_profile Demo.env_broken_facts None None true Demo.granite ∅
  = (Returned ("Error: __str__ returned non-string", None),
     {[ Demo.sid := Demo.index ]},
     trace_of (process_profile Demo.env_broken_facts None None true Demo.granite ∅))
  /\ ({[ Demo.sid := Demo.index ]} : gmap string value) <> ∅.
Proof.
  split; [reflexivity|].
  intros H. apply (f_equal (fun m : gmap string value => m !! Demo.sid)) in H.
  rewrite lookup_singleton_eq, lookup_empty in H. discriminate H.
Qed.

(** C8, amended.  Whenever a call of [process_profile] failed, by raising
    or by a falsy result of profile extraction, node splitting or index
    creation, [active_indices] is what it was before the call; and so it
    is whenever [process_profile] returns [None] as session id and
    formatting the generated facts did not raise. *)
Theorem process_profile_atomic env url key mock model st msg :
  let run := process_profile env url key mock model st in
  ((exists c r, In (ECall c r) (trace_of run) /\ failed c r = true) ->
   store_of run = st)
  /\ (result_of run = Returned (msg, None) ->
      (forall index facts,
         In (ECall (generate_initial_facts_call index) (Returned facts)) (trace_of run) ->
         exists facts_text, py_str env facts = Returned facts_text) ->
      store_of run = st).
Proof.
  cbn zeta. split.
  - intros (c & r & H & Hf).
    run_app; try reflexivity.
    all: cbn [In] in H.
    all: repeat match goal with H : _ \/ _ |- _ => destruct H end; try done.
    all: simplify_eq; cbn [failed stage_of] in Hf; clean_guards; congruence.
  - intros H Hfmt. run_app; try congruence.
    all: edestruct Hfmt as [s Hs]; [cbn [In]; eauto 10 | congruence].
Qed.

Lemma process_profile_atomic_witness :
  store_of
    (process_profile (Demo.with_extract (fun _ _ _ => Returned VNone) Demo.env)
       (Some "https://www.linkedin.com/in/nobody/") (Some "secret") false
       Demo.granite Demo.store)
  = Demo.store.
Proof.
  pose proof (process_profile_atomic
           (Demo.with_extract (fun _ _ _ => Returned VNone) Demo.env)
           (Some "https://www.linkedin.com/in/nobody/") (Some "secret") false
           Demo.granite Demo.store msg_no_profile_data) as H.
  cbn zeta in H. destruct H as [_ H].
  apply H; [reflexivity|].
  intros index facts Hin. vm_compute in Hin.
  destruct Hin as [Hin|Hin]; [discriminate Hin | destruct Hin].
Defined.

(** ** No retries *)

Lemma stops_at_failure_split t :
  stops_at_failure t = true ->
  forall pre c r post,
    t = pre ++ ECall c r :: post -> failed c r = true -> calls_of post = [].
Proof.
  intros Ht pre; revert t Ht.
  induction pre as [|ev pre IH]; intros t Ht c r post -> Hf; cbn in Ht.
  - rewrite Hf in Ht. destruct (calls_of post); [done|]. discriminate.
  - destruct ev as [c' r'|lvl msg]; [apply andb_true_iff in Ht as [_ Ht]|];
      by eapply IH.
Qed.

Lemma process_profile_stops_at_failure env url key mock model st :
  stops_at_failure (trace_of (process_profile env url key mock model st)) = true.
Proof.
  run_app; cbn [stops_at_failure failed stage_of calls_of negb andb];
    use_guards; reflexivity.
Qed.

Lemma chat_with_profile_stops_at_failure env session_id user_query chat_history st :
  stops_at_failure
    (trace_of (chat_with_profile env session_id user_query chat_history st)) = true.
Proof.
  run_app; reflexivity.
Qed.

(** C6. In one invocation of [process_profile], and in one invocation of
    [chat_with_profile], each function of [modules] is called at most once,
    and after a call that failed (it raised, or it is profile extraction,
    node splitting or index creation and returned something falsy) no
    further call is made. *)
Theorem no_retries env url key mock model session_id user_query chat_history st :
  let run := process_profile env url key mock model st in
  let chat := chat_with_profile env session_id user_query chat_history st in
  (forall s, count_stage s (trace_of run) <= 1)
  /\ (forall pre c r post,
        trace_of run = pre ++ ECall c r :: post -> failed c r = true ->
        calls_of post = [])
  /\ (forall s, count_stage s (trace_of chat) <= 1)
  /\ (forall pre c r post,
        trace_of chat = pre ++ ECall c r :: post -> failed c r = true ->
        calls_of post = []).
Proof.
  cbn zeta. repeat split.
  - intros s. unfold count_stage. destruct s; run_app; cbn; lia.
  - apply stops_at_failure_split, process_profile_stops_at_failure.
  - intros s. unfold count_stage. destruct s; run_app; cbn; lia.
  - apply stops_at_failure_split, chat_with_profile_stops_at_failure.
Qed.

Lemma no_retries_witness :
  trace_of
    (process_profile (Demo.with_extract (fun _ _ _ => Raised Demo.timeout) Demo.env)
       (Some "https://www.linkedin.com/in/someone/") (Some "secret") false
       Demo.granite ∅)
  = [] ++ ECall (extract_linkedin_profile_call
                   (Some "https://www.linkedin.com/in/someone/") (Some "secret") false)
            (Raised Demo.timeout)
       :: [ELog "ERROR" "Error in process_profile: request timed out"]
  /\ calls_of [ELog "ERROR" "Error in process_profile: request timed out"] = [].
Proof.
  split; [reflexivity|].
  pose proof (no_retries
                (Demo.with_extract (fun _ _ _ => Raised Demo.timeout) Demo.env)
                (Some "https://www.linkedin.com/in/someone/") (Some "secret") false
                Demo.granite None (Some "") [] ∅) as H.
  cbn zeta in H. destruct H as (_ & H & _).
  apply (H [] (extract_linkedin_profile_call
                 (Some "https://www.linkedin.com/in/someone/") (Some "secret") false)
           (Raised Demo.timeout)); reflexivity.
Defined.

(** ** Frame of [chat_with_profile] *)

(** C7, as stated, fails: a query that is [None], sent with a session id
    that is a key of [active_indices], makes [chat_with_profile] raise at
    [user_query.strip()]; it returns no history, neither the given one nor
    one with a pair appended. *)
Lemma none_query_returns_no_history :
  lookup_session (Some Demo.sid) Demo.store = Some Demo.index
  /\ result_of
       (chat_with_profile Demo.env (Some Demo.sid) None [[VStr "Hi"; VStr "Hello"]]
          Demo.store)
     = Raised none_has_no_strip
  /\ ~ (exists chat_history',
          result_of
            (chat_with_profile Demo.env (Some Demo.sid) None [[VStr "Hi"; VStr "Hello"]]
               Demo.store)
          = Returned chat_history').
Proof.
  split; [apply lookup_singleton_eq|]. split; [reflexivity|].
  intros [h H]. vm_compute in H. discriminate H.
Qed.

(** C7, amended.  [chat_with_profile] leaves [active_indices] as it is,
    whether it returns or raises.  Whenever it returns, it returns either
    the given history itself or the given history with exactly one pair
    [[user_query, reply]] appended.  Given a query that is a string it
    always returns, and returns the given history itself only for a query
    of white space only (the empty one included). *)
Theorem chat_with_profile_frame env session_id user_query chat_history st :
  let chat := chat_with_profile env session_id user_query chat_history st in
  store_of chat = st
  /\ (forall chat_history',
        result_of chat = Returned chat_history' ->
        chat_history' = chat_history
        \/ exists reply,
             chat_history' = chat_history ++ [[textbox_value user_query; reply]])
  /\ (forall q,
        user_query = Some q ->
        exists chat_history',
          result_of chat = Returned chat_history'
          /\ ((chat_history' = chat_history /\ whitespace_only q = true)
              \/ exists reply, chat_history' = chat_history ++ [[VStr q; reply]])).
Proof.
  cbn zeta. split; [|split].
  - run_app; reflexivity.
  - intros h' H. run_app; simplify_eq; eauto.
  - intros q ->. run_app; rewrite ?strip_whitespace_only in *; clean_guards.
    all: eexists; split; [reflexivity|]; eauto.
Qed.

Lemma chat_with_profile_frame_witness :
  exists chat_history',
    result_of (chat_with_profile Demo.env (Some Demo.sid) (Some "Where did she study?")
                 [[VStr "Hi"; VStr "Hello"]] Demo.store)
    = Returned chat_history'
    /\ ((chat_history' = [[VStr "Hi"; VStr "Hello"]]
         /\ whitespace_only "Where did she study?" = true)
        \/ exists reply,
             chat_history' =
               [[VStr "Hi"; VStr "Hello"]] ++ [[VStr "Where did she study?"; reply]]).
Proof.
  pose proof (chat_with_profile_frame Demo.env (Some Demo.sid)
                (Some "Where did she study?") [[VStr "Hi"; VStr "Hello"]] Demo.store)
    as H.
  cbn zeta in H. destruct H as (_ & _ & H).
  exact (H "Where did she study?" eq_refl).
Defined.

(** ** Embedding verification *)

(** C9, as stated, fails: after [verify_embeddings] returned [False] the
    function goes on to [generate_initial_facts], and when that call
    raises no session is stored and no success message is returned. *)
Lemma unverified_run_can_still_fail :
  In (ECall (verify_embeddings_call Demo.index) (Returned (VBool false)))
     (trace_of
        (process_profile
           (with_verify_embeddings (fun _ => Returned (VBool false)) Demo.env_llm_down)
           None None true Demo.granite ∅))
  /\ result_of
       (process_profile
          (with_verify_embeddings (fun _ => Returned (VBool false)) Demo.env_llm_down)
          None None true Demo.granite ∅)
     = Returned ("Error: request timed out", None)
  /\ store_of
       (process_profile
          (with_verify_embeddings (fun _ => Returned (VBool false)) Demo.env_llm_down)
          None None true Demo.granite ∅)
     = ∅.
Proof.
  split; [|split; reflexivity].
  vm_compute. tauto.
Qed.

Lemma py_str_with_verify_embeddings f env v :
  py_str (with_verify_embeddings f env) v = py_str env v.
Proof. by destruct v as [| [|] | | | |]. Qed.

(** C9, amended.  What [process_profile] returns and stores does not
    depend on the value [verify_embeddings] returns: two environments that
    differ only in that value give the same outputs and the same
    [active_indices].  When [verify_embeddings] returned something falsy,
    a warning is logged, [generate_initial_facts] is still called on the
    index, and when that call returns facts that format without raising,
    the session is stored and the success message is returned. *)
Theorem verification_result_is_ignored env url key mock model st :
  let run := process_profile env url key mock model st in
  (forall f1 f2,
     (forall i, exists v, f1 i = Returned v) ->
     (forall i, exists v, f2 i = Returned v) ->
     let run1 := process_profile (with_verify_embeddings f1 env) url key mock model st in
     let run2 := process_profile (with_verify_embeddings f2 env) url key mock model st in
     result_of run1 = result_of run2 /\ store_of run1 = store_of run2)
  /\ (forall index verified,
        In (ECall (verify_embeddings_call index) (Returned verified)) (trace_of run) ->
        truthy verified = false ->
        In (ELog "WARNING" msg_embeddings) (trace_of run)
        /\ In (ECall (generate_initial_facts_call index)
                 (generate_initial_facts env index)) (trace_of run)
        /\ forall facts facts_text,
             generate_initial_facts env index = Returned facts ->
             py_str env facts = Returned facts_text ->
             result_of run = Returned (msg_success facts_text, Some (uuid4 env))
             /\ store_of run = <[uuid4 env := index]> st).
Proof.
  cbn zeta. split.
  - intros f1 f2 H1 H2.
    unfold_app.
    cbn [with_verify_embeddings LLM_MODEL_ID change_llm_model
           extract_linkedin_profile split_profile_data create_vector_database
           verify_embeddings generate_initial_facts uuid4].
    repeat match goal with
      | |- context [f1 ?i] =>
          let v := fresh "v" in let E := fresh "E" in
          destruct (H1 i) as [v E]; rewrite E
      | |- context [f2 ?i] =>
          let v := fresh "v" in let E := fresh "E" in
          destruct (H2 i) as [v E]; rewrite E
      | |- context [py_str (with_verify_embeddings ?f env) ?v] =>
          rewrite (py_str_with_verify_embeddings f env v)
      | _ => step_run; cbn [perform fst snd negb app] in *
      end.
    all: split; reflexivity.
  - intros index verified H Hv.
    run_app; cbn [In] in *.
    all: repeat split; try (intuition congruence).
    all: intros facts facts_text Hf Hs; intuition congruence.
Qed.

Lemma verification_result_is_ignored_witness :
  result_of
    (process_profile (with_verify_embeddings (fun _ => Returned (VBool false)) Demo.env)
       None None true Demo.granite ∅)
  = Returned (msg_success "1. Leads a team. 2. Writes books. 3. Teaches.", Some Demo.sid)
  /\ store_of
       (process_profile (with_verify_embeddings (fun _ => Returned (VBool false)) Demo.env)
          None None true Demo.granite ∅)
     = <[Demo.sid := Demo.index]> ∅.
Proof.
  pose proof (verification_result_is_ignored
                (with_verify_embeddings (fun _ => Returned (VBool false)) Demo.env)
                None None true Demo.granite ∅) as H.
  cbn zeta in H. destruct H as [_ H].
  destruct (H Demo.index (VBool false)) as (_ & _ & Hf).
  - cbn. tauto.
  - reflexivity.
  - exact (Hf Demo.facts _ eq_refl eq_refl).
Defined.

(** ** Shapes of a run *)

(** [process_profile] returns, and either leaves the store alone and gives
    no session id, or has stored the index it built under the identifier
    it drew, which it then returns unless formatting the facts raised. *)
Lemma process_profile_run env url key mock model st :
  exists msg sid st' tr,
    process_profile env url key mock model st = (Returned (msg, sid), st', tr)
    /\ ((sid = None /\ st' = st)
        \/ exists nodes index,
             (sid = Some (uuid4 env) \/ sid = None)
             /\ st' = <[uuid4 env := index]> st
             /\ In (ECall (create_vector_database_call nodes) (Returned index)) tr).
Proof.
  run_app; do 4 eexists; (split; [reflexivity|]).
  all: first [ left; split; reflexivity
             | right; do 2 eexists; split; [eauto|]; split; [reflexivity|];
               cbn [In]; tauto ].
Qed.

(** [chat_with_profile] leaves the store alone, and returns the history or
    the history with one turn more, or raises. *)
Lemma chat_with_profile_run env session_id user_query chat_history st :
  exists r tr,
    chat_with_profile env session_id user_query chat_history st = (r, st, tr)
    /\ (r = Returned chat_history
        \/ (exists turn, r = Returned (chat_history ++ [turn]))
        \/ exists e, r = Raised e).
Proof.
  run_app; do 2 eexists; (split; [reflexivity|]); eauto.
Qed.

Lemma chat_with_profile_valid_session env session_id user_query chat_history st index :
  truthy_opt session_id = true ->
  lookup_session session_id st = Some index ->
  whitespace_only user_query = false ->
  calls_of (trace_of (chat_with_profile env session_id (Some user_query) chat_history st))
  = [(answer_user_query_call index user_query, answer_user_query env index user_query)].
Proof.
  intros H1 H2 H3.
  run_app; rewrite ?strip_whitespace_only in *; clean_guards; try congruence.
  all: simplify_eq; cbn [calls_of]; congruence.
Qed.

Lemma snoc_neq {A} (l : list A) (x : A) : l ++ [x] <> l.
Proof.
  intros H. apply (f_equal length) in H. rewrite length_app in H. cbn in H. lia.
Qed.

(** ** From processing to chatting *)

(** X1.  A profile that was processed can be chatted with: the session id that
    [process_profile] returned, given back to [chat_with_profile] on the
    store that [process_profile] left, sends a query that is not blank to
    [answer_user_query] exactly once, on the very index that
    [create_vector_database] returned during processing.  The identifier
    must not be the empty string, as no [str(uuid.uuid4())] is. *)
Theorem processed_profile_answers_queries env env' url key mock model st msg sid
    user_query chat_history :
  result_of (process_profile env url key mock model st) = Returned (msg, Some sid) ->
  sid <> "" ->
  whitespace_only user_query = false ->
  exists nodes index,
    In (ECall (create_vector_database_call nodes) (Returned index))
       (trace_of (process_profile env url key mock model st))
    /\ calls_of
         (trace_of
            (chat_with_profile env' (Some sid) (Some user_query) chat_history
               (store_of (process_profile env url key mock model st))))
       = [(answer_user_query_call index user_query,
           answer_user_query env' index user_query)].
Proof.
  intros Hres Hsid Hq.
  destruct (process_profile_run env url key mock model st)
    as (msg' & sid' & st' & tr & Hrun & Hcases).
  rewrite Hrun in *. unfold result_of, store_of, trace_of in *. cbn [fst snd] in *.
  injection Hres as -> ->.
  destruct Hcases as [[? _]|(nodes & index & Hs & Hst & Hin)]; [discriminate|].
  destruct Hs as [Hs|Hs]; [|discriminate].
  injection Hs as ->. exists nodes, index. split; [exact Hin|].
  apply chat_with_profile_valid_session; [|by rewrite Hst; apply lookup_insert_eq|done].
  cbn. by destruct (uuid4 env).
Qed.

Lemma processed_profile_answers_queries_witness :
  exists nodes index,
    In (ECall (create_vector_database_call nodes) (Returned index))
       (trace_of (process_profile Demo.env None None true Demo.granite ∅))
    /\ calls_of
         (trace_of
            (chat_with_profile Demo.env (Some Demo.sid) (Some "Where does she work?") []
               (store_of (process_profile Demo.env None None true Demo.granite ∅))))
       = [(answer_user_query_call index "Where does she work?",
           answer_user_query Demo.env index "Where does she work?")].
Proof.
  apply (processed_profile_answers_queries Demo.env Demo.env None None true
           Demo.granite ∅
           (msg_success "1. Leads a team. 2. Writes books. 3. Teaches.") Demo.sid).
  - reflexivity.
  - discriminate.
  - reflexivity.
Defined.

(** ** When the history comes back as it was *)

(** X2.  [chat_with_profile] returns the history it was given exactly when the
    session id is non-empty, is a key of [active_indices] and the query is
    a string that is empty or white space only, by [str.strip()]'s notion
    of white space.  The two session checks come first: a blank query sent
    without a valid session still gets a reply appended. *)
Theorem chat_history_unchanged_iff env session_id user_query chat_history st :
  result_of (chat_with_profile env session_id user_query chat_history st)
  = Returned chat_history
  <-> truthy_opt session_id = true
      /\ lookup_session session_id st <> None
      /\ exists q, user_query = Some q /\ whitespace_only q = true.
Proof.
  split.
  - intros H. run_app; rewrite ?strip_whitespace_only in *; clean_guards.
    all: try (injection H as H; by apply snoc_neq in H).
    all: try discriminate.
    all: repeat split; try congruence; eauto.
  - intros (H1 & H2 & q & -> & H3).
    run_app; rewrite ?strip_whitespace_only in *; clean_guards; congruence.
Qed.

Lemma chat_history_unchanged_iff_witness :
  result_of (chat_with_profile Demo.env (Some Demo.sid)
               (Some (utf8_encode [0x3000; 0x20]%N)) [[VStr "Hi"; VStr "Hello"]]
               Demo.store)
  = Returned [[VStr "Hi"; VStr "Hello"]].
Proof.
  apply chat_history_unchanged_iff.
  split; [reflexivity|]. split.
  - unfold lookup_session, Demo.store. rewrite lookup_singleton_eq. discriminate.
  - eexists. split; reflexivity.
Defined.

(** ** Independence from other sessions *)

(** X3.  What [process_profile] returns and which calls it makes does not depend
    on what [active_indices] holds, and [chat_with_profile] depends on
    [active_indices] only through the entry under its own session id:
    sessions of other users cannot change an answer. *)
Theorem sessions_are_isolated env url key mock model session_id user_query
    chat_history st1 st2 :
  (result_of (process_profile env url key mock model st1)
   = result_of (process_profile env url key mock model st2)
   /\ trace_of (process_profile env url key mock model st1)
      = trace_of (process_profile env url key mock model st2))
  /\ (lookup_session session_id st1 = lookup_session session_id st2 ->
      result_of (chat_with_profile env session_id user_query chat_history st1)
      = result_of (chat_with_profile env session_id user_query chat_history st2)
      /\ trace_of (chat_with_profile env session_id user_query chat_history st1)
         = trace_of (chat_with_profile env session_id user_query chat_history st2)).
Proof.
  split.
  - run_app; split; reflexivity.
  - intros H. run_app; split; congruence.
Qed.

Lemma sessions_are_isolated_witness :
  result_of
    (chat_with_profile Demo.env (Some Demo.sid) (Some "Where does she work?") []
       Demo.store)
  = result_of
      (chat_with_profile Demo.env (Some Demo.sid) (Some "Where does she work?") []
         (<["another-session" := VNone]> Demo.store))
  /\ trace_of
       (chat_with_profile Demo.env (Some Demo.sid) (Some "Where does she work?") []
          Demo.store)
     = trace_of
         (chat_with_profile Demo.env (Some Demo.sid) (Some "Where does she work?") []
            (<["another-session" := VNone]> Demo.store)).
Proof.
  apply (sessions_are_isolated Demo.env None None true Demo.granite (Some Demo.sid)
           (Some "Where does she work?") [] Demo.store
           (<["another-session" := VNone]> Demo.store)).
  cbn [lookup_session]. symmetry. by apply lookup_insert_ne.
Defined.

(** ** Arguments of the scraper outside mock mode *)

(** X4.  With [use_mock] false, every call of [extract_linkedin_profile] gets
    the URL exactly as given, also when it is empty or [None] (the default
    URL is for mock mode only and nothing validates the URL), the API key
    exactly as given, and [mock=False]; the call is made, once, unless
    switching the model raised first. *)
Theorem live_mode_extract_arguments env url key model st :
  let run := process_profile env url key false model st in
  (forall u k m r,
     In (ECall (extract_linkedin_profile_call u k m) r) (trace_of run) ->
     u = url /\ k = key /\ m = false)
  /\ (model = LLM_MODEL_ID env \/ (exists v, change_llm_model env model = Returned v) ->
      In (ECall (extract_linkedin_profile_call url key false)
            (extract_linkedin_profile env url key false)) (trace_of run)
      /\ count_stage extract_linkedin_profile_stage (trace_of run) = 1).
Proof.
  cbn zeta. split.
  - intros u k m r H.
    run_app; unfold effective_url in *; cbn [In andb negb] in *; intuition congruence.
  - intros Hmodel.
    assert (negb (model =? LLM_MODEL_ID env)%string = false
            \/ exists v, change_llm_model env model = Returned v) as Hm.
    { destruct Hmodel as [->|Hv]; [left|by right].
      by rewrite String.eqb_refl. }
    clear Hmodel.
    run_app; unfold effective_url in *; unfold count_stage; cbn in *.
    all: try (split; [intuition congruence | reflexivity]).
    all: destruct Hm as [Hm|[v Hm]]; congruence.
Qed.

Lemma live_mode_extract_arguments_witness :
  In (ECall (extract_linkedin_profile_call (Some "") (Some "secret") false)
        (Returned Demo.profile))
     (trace_of (process_profile Demo.env (Some "") (Some "secret") false Demo.granite ∅))
  /\ count_stage extract_linkedin_profile_stage
       (trace_of (process_profile Demo.env (Some "") (Some "secret") false Demo.granite ∅))
     = 1.
Proof.
  pose proof (live_mode_extract_arguments Demo.env (Some "") (Some "secret")
                Demo.granite ∅) as H.
  cbn zeta in H. destruct H as [_ H].
  apply H. left. reflexivity.
Defined.

(** ** The model switch *)

(** X5.  [change_llm_model] is called exactly when the selected model differs
    from [config.LLM_MODEL_ID]; the call is then the first thing
    [process_profile] does, it passes the selected model, and when it
    raises no other call is made.  With the configured model selected,
    [change_llm_model] is not called at all. *)
Theorem model_switch_comes_first env url key mock model st :
  let run := process_profile env url key mock model st in
  (model = LLM_MODEL_ID env -> count_stage change_llm_model_stage (trace_of run) = 0)
  /\ (model <> LLM_MODEL_ID env ->
      exists rest,
        trace_of run
        = ECall (change_llm_model_call model) (change_llm_model env model) :: rest
        /\ count_stage change_llm_model_stage rest = 0
        /\ (forall e, change_llm_model env model = Raised e -> calls_of rest = [])).
Proof.
  cbn zeta. split.
  - intros ->. unfold process_profile, process_profile_try.
    rewrite String.eqb_refl. cbn [negb].
    run_app; reflexivity.
  - intros Hne. apply String.eqb_neq in Hne.
    unfold process_profile, process_profile_try.
    rewrite Hne. cbn [negb].
    run_app; eexists; (split; [by f_equal|]); split; try reflexivity; congruence.
Qed.

Lemma model_switch_comes_first_witness :
  exists rest,
    trace_of (process_profile Demo.env None None true Demo.llama ∅)
    = ECall (change_llm_model_call Demo.llama) (change_llm_model Demo.env Demo.llama)
        :: rest
    /\ count_stage change_llm_model_stage rest = 0
    /\ (forall e, change_llm_model Demo.env Demo.llama = Raised e -> calls_of rest = []).
Proof.
  pose proof (model_switch_comes_first Demo.env None None true Demo.llama ∅) as H.
  cbn zeta in H. destruct H as [_ H].
  apply H. discriminate.
Defined.

(** ** What gets logged *)

(** X6.  [process_profile] writes an ERROR line exactly when its [try] block
    raised, and the line carries [str(e)]; the three guard failures (a
    falsy profile, node list or index) return their message without
    logging an error.  It writes a WARNING line exactly when
    [verify_embeddings] returned something falsy.  [chat_with_profile]
    logs nothing but an ERROR line, and that exactly when its [try] block
    was entered and raised. *)
Theorem errors_are_logged env url key mock model session_id user_query chat_history st :
  let run := process_profile env url key mock model st in
  let chat := chat_with_profile env session_id user_query chat_history st in
  (forall m,
     In (ELog "ERROR" m) (trace_of run) <->
     exists e, result_of (process_profile_try env url key mock model st) = Raised e
               /\ m = "Error in process_profile: " +:+ exn_str e)
  /\ (forall m,
        In (ELog "WARNING" m) (trace_of run) <->
        m = msg_embeddings
        /\ exists index verified,
             In (ECall (verify_embeddings_call index) (Returned verified)) (trace_of run)
             /\ truthy verified = false)
  /\ (forall level m,
        In (ELog level m) (trace_of chat) <->
        level = "ERROR"
        /\ truthy_opt session_id = true
        /\ lookup_session session_id st <> None
        /\ exists q,
             user_query = Some q
             /\ whitespace_only q = false
             /\ exists e,
                  result_of (chat_with_profile_try env session_id q chat_history st)
                  = Raised e
                  /\ m = "Error in chat_with_profile: " +:+ exn_str e).
Proof.
  cbn zeta. split; [|split].
  - intros m. split.
    + intros H. run_app; cbn [In] in H.
      all: repeat match goal with H : _ \/ _ |- _ => destruct H end; try done.
      all: simplify_eq; eauto.
    + intros (e & H & ->). run_app; try discriminate.
      all: injection H as <-; cbn [In]; tauto.
  - intros m. split.
    + intros H. run_app; cbn [In] in H |- *.
      all: repeat match goal with H : _ \/ _ |- _ => destruct H end; try done.
      all: simplify_eq; split; [reflexivity|]; do 2 eexists; split; eauto 8.
    + intros (-> & index & verified & H & Hv). run_app; cbn [In] in H |- *.
      all: repeat match goal with H : _ \/ _ |- _ => destruct H end; try done.
      all: simplify_eq; try congruence; tauto.
  - intros level m. split.
    + intros H. run_app; rewrite ?strip_whitespace_only in *; clean_guards.
      all: cbn [In] in H.
      all: repeat match goal with H : _ \/ _ |- _ => destruct H end; try done.
      all: simplify_eq; repeat split; try congruence.
      all: eexists; split; [reflexivity|]; split; [assumption|].
      all: cbn;
        repeat (match goal with
                | H : ?x = _ |- context [match ?x with _ => _ end] => rewrite H
                end; cbn).
      all: eexists; split; [reflexivity | congruence].
    + intros (-> & H1 & H2 & q & -> & H3 & e & H & ->).
      run_app; rewrite ?strip_whitespace_only in *; clean_guards; try congruence.
      all: simplify_eq; cbn [In]; try tauto.
      all: right; left; congruence.
Qed.

Lemma errors_are_logged_witness :
  In (ELog "ERROR" "Error in process_profile: request timed out")
     (trace_of
        (process_profile (Demo.with_extract (fun _ _ _ => Raised Demo.timeout) Demo.env)
           (Some "https://www.linkedin.com/in/someone/") (Some "secret") false
           Demo.granite ∅)).
Proof.
  pose proof (errors_are_logged
                (Demo.with_extract (fun _ _ _ => Raised Demo.timeout) Demo.env)
                (Some "https://www.linkedin.com/in/someone/") (Some "secret") false
                Demo.granite None (Some "") [] ∅) as H.
  cbn zeta in H. destruct H as [H _].
  apply H. exists Demo.timeout. split; reflexivity.
Defined.

(** ** Other sessions survive a processing *)

(** X7.  Whatever its outcome, [process_profile] removes no key of
    [active_indices], leaves the index under every key other than the
    identifier it drew as it was, and adds no key other than that
    identifier. *)
Theorem process_profile_keeps_other_sessions env url key mock model st :
  let run := process_profile env url key mock model st in
  (forall k, k <> uuid4 env -> store_of run !! k = st !! k)
  /\ dom st ⊆ dom (store_of run)
  /\ dom (store_of run) ⊆ dom st ∪ {[uuid4 env]}.
Proof.
  cbn zeta.
  destruct (process_profile_run env url key mock model st)
    as (msg & sid & st' & tr & -> & Hcases).
  unfold store_of; cbn [fst snd].
  destruct Hcases as [[_ ->]|(nodes & index & _ & -> & _)].
  - repeat split; set_solver.
  - split; [intros k Hk; by apply lookup_insert_ne|].
    rewrite dom_insert_L. split; [apply union_subseteq_r|].
    apply union_least; [apply union_subseteq_r | apply union_subseteq_l].
Qed.

(** ** The message tells whether a session was opened *)

Lemma prefix_append s x : String.prefix s (s +:+ x) = true.
Proof.
  induction s as [|a s IH]; [by destruct x|].
  change (String.prefix (String a s) (String a (s +:+ x)) = true).
  cbn [String.prefix]. destruct (ascii_dec a a); [exact IH | congruence].
Qed.

(** X8.  The two outputs of [process_profile] agree: a session id is returned
    exactly when the message starts with "Profile processed
    successfully!"; every message that comes with [None] is one of the
    three guard messages or starts with "Error: ". *)
Theorem message_tells_success env url key mock model st msg sid :
  result_of (process_profile env url key mock model st) = Returned (msg, sid) ->
  (is_Some sid <-> String.prefix "Profile processed successfully!" msg = true)
  /\ (sid = None ->
      msg = msg_no_profile_data \/ msg = msg_no_nodes \/ msg = msg_no_index
      \/ String.prefix "Error: " msg = true).
Proof.
  intros H. run_app; injection H as <- <-.
  all: split; [split|].
  all: first
    [ solve [intros [? ?]; discriminate]
    | solve [intros _; apply prefix_append]
    | solve [intros Hp; vm_compute in Hp; discriminate Hp]
    | solve [intros _; eauto]
    | solve [intros ?; discriminate]
    | solve [intros _; tauto]
    | solve [intros _; do 3 right; apply prefix_append] ].
Qed.

Lemma message_tells_success_witness :
  (is_Some (Some Demo.sid) <->
   String.prefix "Profile processed successfully!"
     (msg_success "1. Leads a team. 2. Writes books. 3. Teaches.") = true)
  /\ (Some Demo.sid = None ->
      msg_success "1. Leads a team. 2. Writes books. 3. Teaches." = msg_no_profile_data
      \/ msg_success "1. Leads a team. 2. Writes books. 3. Teaches." = msg_no_nodes
      \/ msg_success "1. Leads a team. 2. Writes books. 3. Teaches." = msg_no_index
      \/ String.prefix "Error: "
           (msg_success "1. Leads a team. 2. Writes books. 3. Teaches.") = true).
Proof.
  apply (message_tells_success Demo.env None None true Demo.granite ∅).
  reflexivity.
Defined.

(** ** One browser session *)

(** What one event does to the page and the store. *)
Lemma serve_cons g gs u st :
  exists u' st',
    page_of (serve (g :: gs) u st) = page_of (serve gs u' st')
    /\ indices_of (serve (g :: gs) u st) = indices_of (serve gs u' st')
    /\ match drawn_uuid g with
       | Some uuid =>
           chatbot u' = chatbot u
           /\ ((session_id_box u' = None /\ st' = st)
               \/ exists index,
                    (session_id_box u' = Some uuid \/ session_id_box u' = None)
                    /\ st' = <[uuid := index]> st)
       | None =>
           session_id_box u' = session_id_box u /\ st' = st
           /\ (chatbot u' = chatbot u \/ exists turn, chatbot u' = chatbot u ++ [turn])
       end.
Proof.
  destruct g as [env url key mock model|env q|env q];
    cbn [serve drawn_uuid]; unfold handle, bind, ret.
  - destruct (process_profile_run env url key mock model st)
      as (msg & sid & st' & tr & -> & Hcases).
    eexists _, st'. destruct (serve gs _ st') as [[? ?] ?] eqn:E.
    unfold page_of, indices_of. rewrite E. cbn. repeat split.
    destruct Hcases as [[-> ->]|(nodes & index & Hs & -> & _)]; eauto.
  - destruct (chat_with_profile_run env (session_id_box u) q (chatbot u) st)
      as (r & tr & -> & Hr).
    destruct Hr as [->|[[turn ->]|[e ->]]].
    all: eexists _, st; destruct (serve gs _ st) as [[? ?] ?] eqn:E.
    all: unfold page_of, indices_of; rewrite E; cbn; repeat split; eauto.
  - destruct (chat_with_profile_run env (session_id_box u) q (chatbot u) st)
      as (r & tr & -> & Hr).
    destruct Hr as [->|[[turn ->]|[e ->]]].
    all: eexists _, st; destruct (serve gs _ st) as [[? ?] ?] eqn:E.
    all: unfold page_of, indices_of; rewrite E; cbn; repeat split; eauto.
Qed.

(** X9.  Sessions never expire while the server runs: however many profiles are
    processed and questions asked, no key of [active_indices] is ever
    removed, and the index stored under a key stays the same as long as no
    later processing draws that same identifier again. *)
Theorem sessions_never_expire gs u st :
  dom st ⊆ dom (indices_of (serve gs u st))
  /\ forall k index,
       st !! k = Some index ->
       Forall (fun g => drawn_uuid g <> Some k) gs ->
       indices_of (serve gs u st) !! k = Some index.
Proof.
  revert u st. induction gs as [|g gs IH]; intros u st.
  - split; [done|]. intros k index Hk _. exact Hk.
  - destruct (serve_cons g gs u st) as (u' & st' & _ & -> & Hshape).
    destruct (IH u' st') as [IHdom IHval].
    assert (dom st ⊆ dom st'
            /\ forall k index, st !! k = Some index -> drawn_uuid g <> Some k ->
                               st' !! k = Some index) as [Hdom Hval].
    { destruct (drawn_uuid g) as [uuid|].
      - destruct Hshape as [_ [[_ ->]|(index & _ & ->)]]; [done|].
        split; [rewrite dom_insert_L; apply union_subseteq_r|].
        intros k i Hk Hne. rewrite lookup_insert_ne; [done|congruence].
      - destruct Hshape as (_ & -> & _). done. }
    split; [by etrans|].
    intros k index Hk Hall. apply Forall_cons in Hall as [Hg Hall].
    apply IHval; [by apply Hval | done].
Qed.

Lemma sessions_never_expire_witness :
  indices_of
    (serve [chat_btn_click Demo.env (Some "Where does she work?");
            process_btn_click Demo.env (Some "https://www.linkedin.com/in/x/") None
              false Demo.granite]
       initial_ui {[ "an-older-session" := Demo.index ]})
  !! "an-older-session" = Some Demo.index.
Proof.
  apply sessions_never_expire.
  - apply lookup_singleton_eq.
  - repeat constructor; discriminate.
Defined.

(** X10.  The "Session expired" reply cannot be reached from the page: once the
    session id on the page is empty or a key of [active_indices], it stays
    so whatever is clicked, and then no question, asked with any state of
    the world, is answered by the "Session expired" reply. *)
Theorem session_expired_is_unreachable gs u st :
  session_known u st ->
  session_known (page_of (serve gs u st)) (indices_of (serve gs u st))
  /\ forall env user_query,
       chat_with_profile env (session_id_box (page_of (serve gs u st))) user_query
         (chatbot (page_of (serve gs u st))) (indices_of (serve gs u st))
       <> (Returned (chatbot (page_of (serve gs u st))
                     ++ [[textbox_value user_query; VStr msg_expired]]),
           indices_of (serve gs u st), []).
Proof.
  intros Hknown.
  assert (session_known (page_of (serve gs u st)) (indices_of (serve gs u st))) as Hfin.
  { revert u st Hknown. induction gs as [|g gs IH]; intros u st Hknown; [exact Hknown|].
    destruct (serve_cons g gs u st) as (u' & st' & -> & -> & Hshape).
    apply IH. unfold session_known in *.
    destruct (drawn_uuid g) as [uuid|].
    - destruct Hshape as [_ [[-> _]|(index & [->| ->] & ->)]]; try discriminate.
      intros _. cbn. by rewrite lookup_insert_eq.
    - destruct Hshape as (-> & -> & _). exact Hknown. }
  split; [exact Hfin|].
  intros env q. unfold session_known in Hfin.
  generalize dependent (page_of (serve gs u st)).
  generalize (indices_of (serve gs u st)).
  intros st' u' Hfin H.
  run_app; rewrite ?strip_whitespace_only in *; clean_guards.
  all: try (injection H as H; apply app_inv_head in H; discriminate H).
  all: try (injection H as H; by apply snoc_neq in H).
  all: try (injection H as H; symmetry in H; by apply snoc_neq in H).
  all: try discriminate.
  all: by apply Hfin.
Qed.

Lemma session_expired_is_unreachable_witness :
  session_known
    (page_of (serve [process_btn_click Demo.env None None true Demo.granite]
                initial_ui ∅))
    (indices_of (serve [process_btn_click Demo.env None None true Demo.granite]
                   initial_ui ∅))
  /\ forall env user_query,
       chat_with_profile env
         (session_id_box
            (page_of (serve [process_btn_click Demo.env None None true Demo.granite]
                        initial_ui ∅)))
         user_query
         (chatbot
            (page_of (serve [process_btn_click Demo.env None None true Demo.granite]
                        initial_ui ∅)))
         (indices_of (serve [process_btn_click Demo.env None None true Demo.granite]
                        initial_ui ∅))
       <> (Returned
             (chatbot
                (page_of (serve [process_btn_click Demo.env None None true Demo.granite]
                            initial_ui ∅))
              ++ [[textbox_value user_query; VStr msg_expired]]),
           indices_of (serve [process_btn_click Demo.env None None true Demo.granite]
                         initial_ui ∅), []).
Proof.
  apply (session_expired_is_unreachable
           [process_btn_click Demo.env None None true Demo.granite] initial_ui ∅).
  intros H. discriminate H.
Defined.

(** X11.  The conversation on the page only grows: after any sequence of events
    the chat history shown starts with the one shown before and has at
    most one more turn per question sent.  Processing a profile, also
    another one, does not clear or change the conversation. *)
Theorem conversation_only_grows gs u st :
  chatbot u `prefix_of` chatbot (page_of (serve gs u st))
  /\ length (chatbot (page_of (serve gs u st)))
     <= length (chatbot u) + length (List.filter is_chat gs).
Proof.
  revert u st. induction gs as [|g gs IH]; intros u st.
  - cbn. split; [done | lia].
  - destruct (serve_cons g gs u st) as (u' & st' & -> & _ & Hshape).
    destruct (IH u' st') as [IHp IHl].
    destruct g as [env url key mock model|env q|env q]; cbn in Hshape |- *.
    + destruct Hshape as [<- _]. split; [done | lia].
    + destruct Hshape as (_ & _ & [Hc|[turn Hc]]); rewrite Hc in *.
      * split; [done | lia].
      * split; [by etrans; [apply prefix_app_r|] |].
        rewrite length_app in IHl. cbn in IHl. lia.
    + destruct Hshape as (_ & _ & [Hc|[turn Hc]]); rewrite Hc in *.
      * split; [done | lia].
      * split; [by etrans; [apply prefix_app_r|] |].
        rewrite length_app in IHl. cbn in IHl. lia.
Qed.

(** X12.  A processing that fails forgets the session on the page: after it, a
    question gets the "No profile loaded" reply, also when a profile had
    been processed before and its index is still in [active_indices]:
    the failed processing removes no key and changes no index but,
    possibly, the one under the identifier it drew. *)
Theorem failed_processing_forgets_session env env' url key mock model u st msg
    user_query :
  result_of (process_profile env url key mock model st) = Returned (msg, None) ->
  let after :=
    serve [process_btn_click env url key mock model; chat_btn_click env' user_query]
      u st in
  result_text (page_of after) = msg
  /\ session_id_box (page_of after) = None
  /\ chatbot (page_of after)
     = chatbot u ++ [[textbox_value user_query; VStr msg_no_session]]
  /\ dom st ⊆ dom (indices_of after)
  /\ (forall k, k <> uuid4 env -> indices_of after !! k = st !! k).
Proof.
  intros H. cbn zeta.
  destruct (process_profile_run env url key mock model st)
    as (msg' & sid & st' & tr & Hrun & Hcases).
  rewrite Hrun in H. unfold result_of in H. cbn [fst] in H.
  injection H as -> ->.
  unfold serve, handle, bind, ret, page_of, indices_of.
  rewrite Hrun. cbn. repeat split.
  - destruct Hcases as [[_ ->]|(nodes & index & _ & -> & _)]; [done|].
    rewrite dom_insert_L. apply union_subseteq_r.
  - intros k Hk.
    destruct Hcases as [[_ ->]|(nodes & index & _ & -> & _)]; [done|].
    by apply lookup_insert_ne.
Qed.

Lemma failed_processing_forgets_session_witness :
  result_text
    (page_of
       (serve [process_btn_click Demo.env_broken_facts None None true Demo.granite;
               chat_btn_click Demo.env (Some "Where does she work?")]
          {| result_text := ""; session_id_box := Some "an-older-session";
             chatbot := [] |}
          {[ "an-older-session" := Demo.index ]}))
  = "Error: __str__ returned non-string"
  /\ session_id_box
       (page_of
          (serve [process_btn_click Demo.env_broken_facts None None true Demo.granite;
                  chat_btn_click Demo.env (Some "Where does she work?")]
             {| result_text := ""; session_id_box := Some "an-older-session";
                chatbot := [] |}
             {[ "an-older-session" := Demo.index ]}))
     = None
  /\ chatbot
       (page_of
          (serve [process_btn_click Demo.env_broken_facts None None true Demo.granite;
                  chat_btn_click Demo.env (Some "Where does she work?")]
             {| result_text := ""; session_id_box := Some "an-older-session";
                chatbot := [] |}
             {[ "an-older-session" := Demo.index ]}))
     = [] ++ [[textbox_value (Some "Where does she work?"); VStr msg_no_session]]
  /\ dom ({[ "an-older-session" := Demo.index ]} : gmap string value)
     ⊆ dom (indices_of
              (serve [process_btn_click Demo.env_broken_facts None None true
                        Demo.granite;
                      chat_btn_click Demo.env (Some "Where does she work?")]
                 {| result_text := ""; session_id_box := Some "an-older-session";
                    chatbot := [] |}
                 {[ "an-older-session" := Demo.index ]}))
  /\ (forall k, k <> uuid4 Demo.env_broken_facts ->
      indices_of
        (serve [process_btn_click Demo.env_broken_facts None None true Demo.granite;
                chat_btn_click Demo.env (Some "Where does she work?")]
           {| result_text := ""; session_id_box := Some "an-older-session";
              chatbot := [] |}
           {[ "an-older-session" := Demo.index ]}) !! k
      = ({[ "an-older-session" := Demo.index ]} : gmap string value) !! k).
Proof.
  apply (failed_processing_forgets_session Demo.env_broken_facts Demo.env None None
           true Demo.granite
           {| result_text := ""; session_id_box := Some "an-older-session";
              chatbot := [] |}
           {[ "an-older-session" := Demo.index ]}
           "Error: __str__ returned non-string" (Some "Where does she work?")).
  reflexivity.
Defined.
